(** * Complexity analyser backend: the request handlers of [main.py]

    A shallow embedding of the FastAPI application in [src/main.py]: the two
    pydantic records, the prompt template, the LangChain pipe
    [formatted_prompt | model | parser], the handlers [read_root] and
    [analyze_code], and the routing the decorators declare.

    The remote chat model and the output parser are library objects: the
    handlers are stated over any model and any parser, and a reader for JSON
    text is given to run the scenarios end to end. *)

From Stdlib Require Import ZArith Ascii.
From stdpp Require Import gmap strings list fin_maps.

Local Open Scope string_scope.

(** ** Python values *)

(** The values that travel through the handlers: what a JSON reader yields
    and what a handler returns. A [dict] is a finite map from text keys. *)
#[warnings="-register-all"]
Inductive PyValue : Type :=
| PyNone
| PyBool (b : bool)
| PyInt (n : Z)
| PyFloat (lexeme : string)
| PyStr (s : string)
| PyList (items : list PyValue)
| PyDict (entries : gmap string PyValue).

(** An instance of Python's [Exception]: its class name and the text that
    [str(e)] gives. These are the failures an [except Exception] clause
    receives. Signals that derive from [BaseException] alone (task
    cancellation, interpreter exit) are not failures of the remote call or of
    the parse, and are not modelled. *)
Record PyException : Type := mkException {
  exc_class : string;
  exc_text : string
}.

Definition str (e : PyException) : string := exc_text e.

(** ** Effects *)

(** What a request does to the outside world: an invocation of the remote
    model through its client, or a line printed to the server log. The
    client issues the network request and may repeat it on its own account;
    the log records the invocation, not the requests behind it. *)
Inductive Event : Type :=
| EvModelCall (role_and_text : list (string * string))
| EvPrint (line : string).

Inductive Outcome (A : Type) : Type :=
| Returned (a : A)
| Raised (e : PyException).
Arguments Returned {A} a.
Arguments Raised {A} e.

(** A computation reads the log of events so far, extends it, and either
    returns or raises. *)
Definition Run (A : Type) : Type := list Event -> Outcome A * list Event.

Definition ret {A} (a : A) : Run A := fun tr => (Returned a, tr).
Definition bind {A B} (c : Run A) (k : A -> Run B) : Run B :=
  fun tr =>
    match c tr with
    | (Returned a, tr') => k a tr'
    | (Raised e, tr') => (Raised e, tr')
    end.
Definition emit (ev : Event) : Run unit := fun tr => (Returned tt, (tr ++ [ev])%list).
Definition print (line : string) : Run unit := emit (EvPrint line).

(** [try: body except Exception as e: handler e] *)
Definition try_except {A} (body : Run A) (handler : PyException -> Run A) : Run A :=
  fun tr =>
    match body tr with
    | (Returned a, tr') => (Returned a, tr')
    | (Raised e, tr') => handler e tr'
    end.

Definition lift {A} (o : Outcome A) : Run A := fun tr => (o, tr).

Declare Scope run_scope.
Delimit Scope run_scope with run.
Notation "x <- c ;; k" := (bind c (fun x => k))
  (at level 100, c at next level, right associativity) : run_scope.
Notation "c ;;; k" := (bind c (fun _ => k))
  (at level 100, right associativity) : run_scope.

Local Open Scope run_scope.

(** ** 1. Pydantic models for request and response *)

(** [class CodeInput(BaseModel)]: the expected JSON input. *)
Record CodeInput : Type := mkCodeInput {
  code : string;
  language : string
}.

(** [class AnalysisOutput(BaseModel)]: the JSON output structure. *)
Record AnalysisOutput : Type := mkAnalysisOutput {
  time : string;
  timeExplanation : string;
  space : string;
  spaceExplanation : string
}.

(** A field annotated [str] accepts a text value and nothing else; a missing
    key is an error. *)
Definition validate_str (field : option PyValue) : option string :=
  match field with
  | Some (PyStr s) => Some s
  | _ => None
  end.

(** Validation of a decoded body against [CodeInput]: a dict that holds both
    fields as text. Keys that the model does not declare are ignored. *)
Definition CodeInput_validate (v : PyValue) : option CodeInput :=
  match v with
  | PyDict d =>
      match validate_str (d !! "code"), validate_str (d !! "language") with
      | Some c, Some l => Some (mkCodeInput c l)
      | _, _ => None
      end
  | _ => None
  end.

Definition AnalysisOutput_validate (v : PyValue) : option AnalysisOutput :=
  match v with
  | PyDict d =>
      match validate_str (d !! "time"), validate_str (d !! "timeExplanation"),
            validate_str (d !! "space"), validate_str (d !! "spaceExplanation") with
      | Some t, Some te, Some s, Some se => Some (mkAnalysisOutput t te s se)
      | _, _, _, _ => None
      end
  | _ => None
  end.

(** The dict a validated [AnalysisOutput] is serialised from. *)
Definition AnalysisOutput_dump (a : AnalysisOutput) : PyValue :=
  PyDict {[ "time" := PyStr (time a);
            "timeExplanation" := PyStr (timeExplanation a);
            "space" := PyStr (space a);
            "spaceExplanation" := PyStr (spaceExplanation a) ]}.

(** ** 3. LangChain setup *)

(** A chat model: given the rendered messages it answers with text or
    fails. *)
Record ChatModel : Type := mkChatModel {
  model_invoke : list (string * string) -> Outcome string
}.

(** An output parser: the format instructions it advertises and its reading
    of the model's text. *)
Record OutputParser : Type := mkOutputParser {
  get_format_instructions : string;
  parse : string -> Outcome PyValue
}.

(** Rendering of one template in the [str.format] style: [{name}] is
    replaced by the value bound to [name]; a doubled brace stands for the
    brace itself. *)
Inductive FormatMode : Type :=
| InText
| AfterOpen
| InField (name : string)
| AfterClose.

Definition omap_outcome {A B} (f : A -> B) (o : Outcome A) : Outcome B :=
  match o with
  | Returned a => Returned (f a)
  | Raised e => Raised e
  end.

Definition is_char (c : ascii) (s : string) : bool :=
  if decide (String c EmptyString = s) then true else false.

Fixpoint format_from (env : gmap string string) (mode : FormatMode) (t : string)
  : Outcome string :=
  match t with
  | EmptyString =>
      match mode with
      | InText => Returned EmptyString
      | AfterOpen | InField _ =>
          Raised (mkException "ValueError" "expected '}' before end of string")
      | AfterClose =>
          Raised (mkException "ValueError" "Single '}' encountered in format string")
      end
  | String c rest =>
      let text := format_from env InText rest in
      let field name :=
        match env !! name with
        | Some v => omap_outcome (String.append v) text
        | None => Raised (mkException "KeyError" ("'" ++ name ++ "'"))
        end in
      match mode with
      | InText =>
          if is_char c "{" then format_from env AfterOpen rest
          else if is_char c "}" then format_from env AfterClose rest
          else omap_outcome (String c) text
      | AfterOpen =>
          if is_char c "{" then omap_outcome (String c) text
          else if is_char c "}" then field EmptyString
          else format_from env (InField (String c EmptyString)) rest
      | InField name =>
          if is_char c "}" then field name
          else format_from env (InField (name ++ String c EmptyString)) rest
      | AfterClose =>
          if is_char c "}" then omap_outcome (String c) text
          else Raised (mkException "ValueError" "Single '}' encountered in format string")
      end
  end.

Definition format_template (env : gmap string string) (t : string) : Outcome string :=
  format_from env InText t.

(** [ChatPromptTemplate]: the (role, template) pairs and the variables bound
    ahead of time by [partial]. *)
Record ChatPromptTemplate : Type := mkChatPromptTemplate {
  messages : list (string * string);
  partial_variables : gmap string string
}.

Definition from_messages (ms : list (string * string)) : ChatPromptTemplate :=
  mkChatPromptTemplate ms ∅.

Definition partial (t : ChatPromptTemplate) (name value : string) : ChatPromptTemplate :=
  mkChatPromptTemplate (messages t) (<[name := value]> (partial_variables t)).

Fixpoint format_each (env : gmap string string) (ms : list (string * string))
  : Outcome (list (string * string)) :=
  match ms with
  | [] => Returned []
  | (role, template) :: rest =>
      match format_template env template with
      | Raised e => Raised e
      | Returned text =>
          omap_outcome (cons (role, text)) (format_each env rest)
      end
  end.

(** The values given at the call take precedence over the partial ones. *)
Definition format_messages (t : ChatPromptTemplate) (inputs : gmap string string)
  : Outcome (list (string * string)) :=
  format_each (inputs ∪ partial_variables t) (messages t).

Definition system_template : string :=
"
You are an expert algorithm analyst. Your sole purpose is to analyze a given code snippet and return its time and space complexity in Big O notation.

You MUST provide your output *only* in the following JSON format. Do not include *any* other text, markdown, greetings, or explanations outside of the JSON structure.

{format_instructions}
".

Definition human_template : string :=
"
Analyze the following code snippet, written in {language}:

<code>
{code}
</code>
".

Definition prompt_template : ChatPromptTemplate :=
  from_messages [ ("system", system_template); ("human", human_template) ].

(** [prompt_template.partial(format_instructions=parser.get_format_instructions())] *)
Definition formatted_prompt (parser : OutputParser) : ChatPromptTemplate :=
  partial prompt_template "format_instructions" (get_format_instructions parser).

(** [formatted_prompt | model | parser] *)
Record RunnableSequence : Type := mkRunnableSequence {
  seq_prompt : ChatPromptTemplate;
  seq_model : ChatModel;
  seq_parser : OutputParser
}.

(** One invocation of the chain: render the prompt, send it to the model (the
    one network call), read the answer with the parser. A failure of any
    step ends the invocation. *)
Definition ainvoke (chain : RunnableSequence) (inputs : gmap string string)
  : Run PyValue :=
  prompt <- lift (format_messages (seq_prompt chain) inputs) ;;
  emit (EvModelCall prompt) ;;;
  text <- lift (model_invoke (seq_model chain) prompt) ;;
  lift (parse (seq_parser chain) text).

(** The start of the process: the model client is constructed, and a failure
    leaves [model = None]. *)
Definition init_model (construct : Outcome ChatModel) : Run (option ChatModel) :=
  try_except
    (m <- lift construct ;; ret (Some m))
    (fun e =>
       print ("Error initializing DeepSeek model: " ++ str e) ;;;
       print "Please ensure your DEEPSEEK_API_KEY is set in the .env file." ;;;
       ret None).

(** [if model: chain = formatted_prompt | model | parser else: chain = None] *)
Definition make_chain (model : option ChatModel) (parser : OutputParser)
  : option RunnableSequence :=
  match model with
  | Some m => Some (mkRunnableSequence (formatted_prompt parser) m parser)
  | None => None
  end.

(** ** 4. API endpoints *)

Definition read_root : string :=
"
    <html>
        <head>
            <title>Welcome UpTimeRobot</title>
        </head>
        <body>
            <h1>Hi UptimeRobot ;)</h1>
        </body>
    </html>
    ".

Definition not_configured_result : PyValue :=
  PyDict {[ "time" := PyStr "Error";
            "timeExplanation" := PyStr "Server-side model is not configured.";
            "space" := PyStr "Error";
            "spaceExplanation" := PyStr "Please check the server logs." ]}.

Definition failure_result (e : PyException) : PyValue :=
  PyDict {[ "time" := PyStr "Error";
            "timeExplanation" :=
              PyStr "Failed to analyze code. The code may be incomplete or invalid.";
            "space" := PyStr "Error";
            "spaceExplanation" := PyStr ("Server error: " ++ str e) ]}.

(** [async def analyze_code(input: CodeInput)] *)
Definition analyze_code (chain : option RunnableSequence) (input : CodeInput)
  : Run PyValue :=
  match chain with
  | None => ret not_configured_result
  | Some chain =>
      try_except
        (response_json <-
           ainvoke chain {[ "language" := language input; "code" := code input ]} ;;
         ret response_json)
        (fun e =>
           print ("Error during analysis: " ++ str e) ;;;
           ret (failure_result e))
  end.

(** ** The HTTP routes *)

(** What a request carries besides its method and path: the headers and the
    decoded JSON body. [req_body] is [None] when the request has no body or
    the framework did not decode one, which depends on the content type the
    request declares; the routes below read the decoded body only. *)
Record Request : Type := mkRequest {
  req_headers : list (string * string);
  req_body : option PyValue
}.

Inductive Response : Type :=
| Ok200 (content : PyValue)
| Unprocessable422
| ServerError500.

Definition status_code (r : Response) : Z :=
  match r with
  | Ok200 _ => 200
  | Unprocessable422 => 422
  | ServerError500 => 500
  end.

(** [@app.get("/")]: the function takes no parameter, so nothing of the
    request reaches it; what it returns is the content of a 200 response. *)
Definition route_root (req : Request) : Run Response :=
  ret (Ok200 (PyStr read_root)).

(** [@app.post("/analyze", response_model=AnalysisOutput)]: the body is
    validated against [CodeInput] before the function runs, and what the
    function returns is validated against [AnalysisOutput] before it is
    sent. *)
Definition route_analyze (chain : option RunnableSequence) (req : Request)
  : Run Response :=
  match req_body req ≫= CodeInput_validate with
  | None => ret Unprocessable422
  | Some input =>
      fun tr =>
        match analyze_code chain input tr with
        | (Returned v, tr') =>
            match AnalysisOutput_validate v with
            | Some out => (Returned (Ok200 (AnalysisOutput_dump out)), tr')
            | None => (Returned ServerError500, tr')
            end
        | (Raised e, tr') => (Returned ServerError500, tr')
        end
  end.

(** ** Text helpers *)

(** [s] without its prefix [p], when it starts with [p]. *)
Fixpoint strip_prefix (p s : string) : option string :=
  match p, s with
  | EmptyString, _ => Some s
  | String a p', String b s' => if decide (a = b) then strip_prefix p' s' else None
  | String _ _, EmptyString => None
  end.

(** What stands before and after the first occurrence of [needle]. *)
Fixpoint split_at_first (needle hay : string) : option (string * string) :=
  match strip_prefix needle hay with
  | Some after => Some (EmptyString, after)
  | None =>
      match hay with
      | EmptyString => None
      | String c rest =>
          match split_at_first needle rest with
          | Some (before, after) => Some (String c before, after)
          | None => None
          end
      end
  end.

(** ** Reading JSON text *)

Module Json.

Local Open Scope char_scope.

Definition is_space (c : ascii) : bool :=
  match c with
  | " " | "009" | "010" | "013" => true
  | _ => false
  end.

Definition is_digit (c : ascii) : bool :=
  let n := nat_of_ascii c in (48 <=? n)%nat && (n <=? 57)%nat.

Fixpoint skip_ws (s : string) : string :=
  match s with
  | String c r => if is_space c then skip_ws r else s
  | EmptyString => s
  end.

Fixpoint take_digits (s : string) : string * string :=
  match s with
  | String c r =>
      if is_digit c then let '(d, rest) := take_digits r in (String c d, rest)
      else (EmptyString, s)
  | EmptyString => (EmptyString, s)
  end.

Fixpoint digits_value (acc : Z) (d : string) : Z :=
  match d with
  | String c r => digits_value (10 * acc + Z.of_nat (nat_of_ascii c - 48)) r
  | EmptyString => acc
  end.

(** The integer part: a lone [0], or digits that start with a non-zero one. *)
Definition take_int (s : string) : string * string :=
  match s with
  | String "0" r => (String "0" EmptyString, r)
  | _ => take_digits s
  end.

(** An optional fraction: a dot followed by at least one digit. *)
Definition take_frac (s : string) : string * string :=
  match s with
  | String "." r =>
      match take_digits r with
      | (EmptyString, _) => (EmptyString, s)
      | (d, rest) => (String "." d, rest)
      end
  | _ => (EmptyString, s)
  end.

(** An optional exponent: [e] or [E], an optional sign, at least one digit. *)
Definition take_exp (s : string) : string * string :=
  match s with
  | String c r =>
      if decide (c = "e" \/ c = "E") then
        let '(sign, r') :=
          match r with
          | String "+" r' => (String "+" EmptyString, r')
          | String "-" r' => (String "-" EmptyString, r')
          | _ => (EmptyString, r)
          end in
        match take_digits r' with
        | (EmptyString, _) => (EmptyString, s)
        | (d, rest) => (String c (sign ++ d)%string, rest)
        end
      else (EmptyString, s)
  | EmptyString => (EmptyString, s)
  end.

Definition read_number (s : string) : option (PyValue * string) :=
  let '(neg, s1) :=
    match s with
    | String "-" r => (true, r)
    | _ => (false, s)
    end in
  match take_int s1 with
  | (EmptyString, _) => None
  | (ip, s2) =>
      let '(frac, s3) := take_frac s2 in
      let '(ex, s4) := take_exp s3 in
      match frac, ex with
      | EmptyString, EmptyString =>
          let n := digits_value 0 ip in
          Some (PyInt (if neg then - n else n), s4)
      | _, _ =>
          let sign := if neg then String "-" EmptyString else EmptyString in
          Some (PyFloat (sign ++ ip ++ frac ++ ex)%string, s4)
      end
  end.

Definition unescape (c : ascii) : option ascii :=
  match c with
  | "034" => Some "034"
  | "\" => Some "\"
  | "/" => Some "/"
  | "b" => Some "008"
  | "f" => Some "012"
  | "n" => Some "010"
  | "r" => Some "013"
  | "t" => Some "009"
  | _ => None
  end.

(** The text after an opening quote, up to the closing one. *)
Fixpoint read_string (s : string) : option (string * string) :=
  match s with
  | EmptyString => None
  | String c r =>
      if decide (c = "034") then Some (EmptyString, r)
      else if decide (c = "\") then
        match r with
        | String e r' =>
            match unescape e, read_string r' with
            | Some ch, Some (body, rest) => Some (String ch body, rest)
            | _, _ => None
            end
        | EmptyString => None
        end
      else
        match read_string r with
        | Some (body, rest) => Some (String c body, rest)
        | None => None
        end
  end.

Fixpoint read_value (fuel : nat) (s : string) : option (PyValue * string) :=
  match fuel with
  | O => None
  | S fuel' =>
      match skip_ws s with
      | EmptyString => None
      | String c r as s0 =>
          if decide (c = "{") then
            match skip_ws r with
            | String "}" r' => Some (PyDict ∅, r')
            | _ => read_members fuel' ∅ r
            end
          else if decide (c = "[") then
            match skip_ws r with
            | String "]" r' => Some (PyList [], r')
            | _ =>
                match read_items fuel' r with
                | Some (items, rest) => Some (PyList items, rest)
                | None => None
                end
            end
          else if decide (c = "034") then
            match read_string r with
            | Some (body, rest) => Some (PyStr body, rest)
            | None => None
            end
          else
            match strip_prefix "true" s0, strip_prefix "false" s0, strip_prefix "null" s0 with
            | Some rest, _, _ => Some (PyBool true, rest)
            | _, Some rest, _ => Some (PyBool false, rest)
            | _, _, Some rest => Some (PyNone, rest)
            | _, _, _ => read_number s0
            end
      end
  end
with read_members (fuel : nat) (acc : gmap string PyValue) (s : string)
  : option (PyValue * string) :=
  match fuel with
  | O => None
  | S fuel' =>
      match skip_ws s with
      | String "034" r =>
          match read_string r with
          | Some (key, r1) =>
              match skip_ws r1 with
              | String ":" r2 =>
                  match read_value fuel' r2 with
                  | Some (v, r3) =>
                      match skip_ws r3 with
                      | String "," r4 => read_members fuel' (<[key := v]> acc) r4
                      | String "}" r4 => Some (PyDict (<[key := v]> acc), r4)
                      | _ => None
                      end
                  | None => None
                  end
              | _ => None
              end
          | None => None
          end
      | _ => None
      end
  end
with read_items (fuel : nat) (s : string) : option (list PyValue * string) :=
  match fuel with
  | O => None
  | S fuel' =>
      match read_value fuel' s with
      | Some (v, r1) =>
          match skip_ws r1 with
          | String "," r2 =>
              match read_items fuel' r2 with
              | Some (items, rest) => Some (v :: items, rest)
              | None => None
              end
          | String "]" r2 => Some ([v], r2)
          | _ => None
          end
      | None => None
      end
  end.

(** The whole text must be one JSON value, surrounded by blanks at most.
    Escapes of the form [\uXXXX] and the non-standard literals [NaN] and
    [Infinity] are not read: such a text is answered with [None]. *)
Definition loads (s : string) : option PyValue :=
  match read_value (S (String.length s)) s with
  | Some (v, rest) =>
      match skip_ws rest with
      | EmptyString => Some v
      | _ => None
      end
  | None => None
  end.

End Json.

(** [JsonOutputParser(pydantic_object=...)]: the pydantic class supplies the
    format instructions; the text is read as JSON and the value read is the
    result, whatever its shape; text that cannot be read raises. The library
    also unwraps a Markdown fence, completes truncated JSON, drops trailing
    characters and reads [\uXXXX] escapes before it gives up, and its
    exception text is longer; those repairs are left out, and this instance
    is applied to complete JSON text and to prose only. What holds of every parser is
    stated over [OutputParser]. *)
Definition JsonOutputParser (format_instructions : string) : OutputParser :=
  mkOutputParser format_instructions
    (fun text =>
       match Json.loads text with
       | Some v => Returned v
       | None =>
           Raised (mkException "OutputParserException" ("Invalid json output: " ++ text))
       end).

(** ** The shape of an analysis result *)

Definition four_fields : gset string :=
  {[ "time"; "timeExplanation"; "space"; "spaceExplanation" ]}.

(** A dict with exactly the four keys of [AnalysisOutput], each bound to a
    text. *)
Definition well_formed (v : PyValue) : bool :=
  match v with
  | PyDict d =>
      bool_decide (dom d = four_fields) &&
      match AnalysisOutput_validate v with
      | Some _ => true
      | None => false
      end
  | _ => false
  end.

Definition nonempty (s : string) : bool :=
  match s with
  | EmptyString => false
  | String _ _ => true
  end.

(** Well formed, and none of the four texts is empty. *)
Definition populated (v : PyValue) : bool :=
  well_formed v &&
  match AnalysisOutput_validate v with
  | Some a =>
      nonempty (time a) && nonempty (timeExplanation a) &&
      nonempty (space a) && nonempty (spaceExplanation a)
  | None => false
  end.

(** [needle in hay] *)
Definition contains (needle hay : string) : Prop :=
  exists before after, hay = before ++ needle ++ after.

(** ** Substitute collaborators *)

(** A model client that gives the same answer to every prompt. *)
Definition mock_model (answer : Outcome string) : ChatModel :=
  mkChatModel (fun _ => answer).

Definition schema_instructions : string :=
  "Return a JSON object with the text fields time, timeExplanation, space, spaceExplanation.".

Definition parser : OutputParser := JsonOutputParser schema_instructions.

(** The chain of a process whose model client was constructed and answers
    [answer]. *)
Definition mock_sequence (answer : Outcome string) : RunnableSequence :=
  mkRunnableSequence (formatted_prompt parser) (mock_model answer) parser.

Definition mock_chain (answer : Outcome string) : option RunnableSequence :=
  make_chain (Some (mock_model answer)) parser.

Definition loop_input : CodeInput :=
  mkCodeInput "for i in range(n): pass" "python".

(** [s] between double quotes. *)
Definition quoted (s : string) : string :=
  String "034" (s ++ String "034" EmptyString).

Definition loop_reply : string :=
  "{" ++ quoted "time" ++ ":" ++ quoted "O(n)" ++ "," ++
  quoted "timeExplanation" ++ ":" ++ quoted "single pass" ++ "," ++
  quoted "space" ++ ":" ++ quoted "O(1)" ++ "," ++
  quoted "spaceExplanation" ++ ":" ++ quoted "constant extra memory" ++ "}".

Definition loop_request : Request :=
  mkRequest [("content-type", "application/json")]
    (Some (PyDict {[ "code" := PyStr "for i in range(n): pass";
                     "language" := PyStr "python" ]})).

(** A reply that carries one of the four fields only. *)
Definition partial_reply : string :=
  "{" ++ quoted "time" ++ ":" ++ quoted "O(n)" ++ "}".

(** A reply that is a JSON array, not an object. *)
Definition array_reply : string :=
  "[" ++ quoted "O(n)" ++ "," ++ quoted "O(1)" ++ "]".

(** A reply that is prose, not JSON. *)
Definition prose_reply : string := "The loop runs n times, so O(n).".

(** A reply with the four fields, all empty. *)
Definition blank_reply : string :=
  "{" ++ quoted "time" ++ ":" ++ quoted EmptyString ++ "," ++
  quoted "timeExplanation" ++ ":" ++ quoted EmptyString ++ "," ++
  quoted "space" ++ ":" ++ quoted EmptyString ++ "," ++
  quoted "spaceExplanation" ++ ":" ++ quoted EmptyString ++ "}".

(** A reply whose complexity texts are not Big-O expressions. *)
Definition odd_reply : string :=
  "{" ++ quoted "time" ++ ":" ++ quoted "fast-ish" ++ "," ++
  quoted "timeExplanation" ++ ":" ++ quoted "??" ++ "," ++
  quoted "space" ++ ":" ++ quoted "O(banana" ++ "," ++
  quoted "spaceExplanation" ++ ":" ++ quoted "n/a" ++ "}".

Definition timeout_error : PyException :=
  mkException "APITimeoutError" "Request timed out.".

(** * Properties *)

(** ** Text *)

Lemma strip_prefix_app (p s r : string) :
  strip_prefix p s = Some r -> s = p ++ r.
Proof.
  revert s. induction p as [|a p IH]; intros [|b s]; simpl.
  - by intros [= <-].
  - by intros [= <-].
  - congruence.
  - case_decide as Hab; [|congruence]. intros Hp. subst b.
    change (String a s = String a (p ++ r)). f_equal. by apply IH.
Qed.

Lemma split_at_first_app (needle hay before after : string) :
  split_at_first needle hay = Some (before, after) ->
  hay = before ++ needle ++ after.
Proof.
  revert before. induction hay as [|c hay IH]; intros before; simpl.
  - destruct (strip_prefix needle EmptyString) as [r|] eqn:E; [|congruence].
    intros [= <- <-]. exact (strip_prefix_app _ _ _ E).
  - destruct (strip_prefix needle (String c hay)) as [r|] eqn:E.
    + intros [= <- <-]. exact (strip_prefix_app _ _ _ E).
    + destruct (split_at_first needle hay) as [[b a]|]; [|congruence].
      intros [= <- <-].
      change (String c hay = String c (b ++ needle ++ a)). f_equal. by apply IH.
Qed.

Lemma split_at_first_contains (needle hay : string) :
  is_Some (split_at_first needle hay) -> contains needle hay.
Proof.
  intros [[before after] H]. exists before, after. by apply split_at_first_app.
Qed.

(** ** The JSON reader and the template renderer at work *)

Example loads_nested :
  Json.loads " [1, -2.5e3, true, null, {}] " =
  Some (PyList [PyInt 1; PyFloat "-2.5e3"; PyBool true; PyNone; PyDict ∅]).
Proof. vm_compute. reflexivity. Qed.

Example loads_last_key_wins :
  Json.loads ("{" ++ quoted "a" ++ ": 1, " ++ quoted "a" ++ ": 2}") =
  Some (PyDict {[ "a" := PyInt 2 ]}).
Proof. vm_compute. reflexivity. Qed.

Example loads_escape :
  Json.loads (quoted "a\nb\\") = Some (PyStr (String "a" (String "010" "b\"))).
Proof. vm_compute. reflexivity. Qed.

Example loads_trailing_text : Json.loads "01" = None.
Proof. reflexivity. Qed.

Example format_template_braces (who : string) :
  format_template {[ "who" := who ]} "hi {who}, {{ok}}" =
  Returned ("hi " ++ who ++ ", {ok}").
Proof. vm_compute. reflexivity. Qed.

Example format_template_missing :
  format_template ∅ "{code}" = Raised (mkException "KeyError" "'code'").
Proof. reflexivity. Qed.

(** ** The shape of the results the handler builds itself *)

Lemma dump_dom (a : AnalysisOutput) :
  match AnalysisOutput_dump a with
  | PyDict d => dom d = four_fields
  | _ => False
  end.
Proof.
  unfold AnalysisOutput_dump, four_fields.
  rewrite !dom_insert_L, dom_singleton_L. set_solver.
Qed.

Lemma validate_dump (a : AnalysisOutput) :
  AnalysisOutput_validate (AnalysisOutput_dump a) = Some a.
Proof.
  destruct a as [t te s se]. unfold AnalysisOutput_validate, AnalysisOutput_dump.
  cbn [time timeExplanation space spaceExplanation].
  rewrite lookup_insert_eq.
  rewrite lookup_insert_ne by done. rewrite lookup_insert_eq.
  do 2 (rewrite lookup_insert_ne by done). rewrite lookup_insert_eq.
  do 3 (rewrite lookup_insert_ne by done). rewrite lookup_singleton_eq.
  reflexivity.
Qed.

Lemma well_formed_dump (a : AnalysisOutput) :
  well_formed (AnalysisOutput_dump a) = true.
Proof.
  pose proof (dump_dom a) as Hdom. pose proof (validate_dump a) as Hval.
  unfold well_formed. destruct (AnalysisOutput_dump a) as [| | | | | |d]; try done.
  rewrite Hval. by rewrite bool_decide_eq_true_2.
Qed.

Lemma validate_str_Some (field : option PyValue) (s : string) :
  validate_str field = Some s -> field = Some (PyStr s).
Proof. destruct field as [[]|]; simpl; congruence. Qed.

(** A well-formed value is the serialisation of an [AnalysisOutput], and
    nothing more. *)
Lemma well_formed_inv (v : PyValue) :
  well_formed v = true -> exists a, v = AnalysisOutput_dump a.
Proof.
  destruct v as [| | | | | |d]; try done. cbn [well_formed].
  intros [Hdom Hval]%andb_prop. apply bool_decide_eq_true in Hdom.
  unfold AnalysisOutput_validate in Hval.
  destruct (validate_str (d !! "time")) as [t|] eqn:Ht; [|done].
  destruct (validate_str (d !! "timeExplanation")) as [te|] eqn:Hte; [|done].
  destruct (validate_str (d !! "space")) as [sp|] eqn:Hs; [|done].
  destruct (validate_str (d !! "spaceExplanation")) as [se|] eqn:Hse; [|done].
  apply validate_str_Some in Ht, Hte, Hs, Hse.
  exists (mkAnalysisOutput t te sp se). unfold AnalysisOutput_dump. f_equal.
  apply map_eq. intros k. cbn [time timeExplanation space spaceExplanation].
  destruct (decide (k = "time")) as [->|Hk1]; [by rewrite lookup_insert_eq|].
  rewrite lookup_insert_ne by done.
  destruct (decide (k = "timeExplanation")) as [->|Hk2]; [by rewrite lookup_insert_eq|].
  rewrite lookup_insert_ne by done.
  destruct (decide (k = "space")) as [->|Hk3]; [by rewrite lookup_insert_eq|].
  rewrite lookup_insert_ne by done.
  destruct (decide (k = "spaceExplanation")) as [->|Hk4];
    [by rewrite lookup_singleton_eq|].
  rewrite lookup_singleton_ne by done.
  apply not_elem_of_dom. rewrite Hdom. unfold four_fields.
  rewrite !elem_of_union, !elem_of_singleton.
  intros [[[?|?]|?]|?]; congruence.
Qed.

Lemma not_configured_is_dump :
  not_configured_result =
  AnalysisOutput_dump
    (mkAnalysisOutput "Error" "Server-side model is not configured."
                      "Error" "Please check the server logs.").
Proof. reflexivity. Qed.

Lemma failure_is_dump (e : PyException) :
  failure_result e =
  AnalysisOutput_dump
    (mkAnalysisOutput "Error"
       "Failed to analyze code. The code may be incomplete or invalid."
       "Error" ("Server error: " ++ str e)).
Proof. reflexivity. Qed.

Lemma populated_not_configured : populated not_configured_result = true.
Proof.
  unfold populated. rewrite not_configured_is_dump.
  by rewrite well_formed_dump, validate_dump.
Qed.

Lemma populated_failure (e : PyException) : populated (failure_result e) = true.
Proof.
  unfold populated. rewrite failure_is_dump.
  by rewrite well_formed_dump, validate_dump.
Qed.

(** ** One invocation of the chain *)

Section Invocation.
Context (chain : RunnableSequence) (inputs : gmap string string).

(** The three ways an invocation can go wrong, and the one way it goes
    right; the model is called once unless rendering already failed. *)
Lemma ainvoke_steps (tr : list Event) :
  ainvoke chain inputs tr =
  match format_messages (seq_prompt chain) inputs with
  | Raised e => (Raised e, tr)
  | Returned prompt =>
      match model_invoke (seq_model chain) prompt with
      | Raised e => (Raised e, (tr ++ [EvModelCall prompt])%list)
      | Returned text => (parse (seq_parser chain) text, (tr ++ [EvModelCall prompt])%list)
      end
  end.
Proof.
  unfold ainvoke, bind, lift, emit.
  destruct (format_messages _ _) as [prompt|e]; [|reflexivity].
  destruct (model_invoke _ _) as [text|e]; [|reflexivity].
  by destruct (parse _ _).
Qed.

Lemma ainvoke_model_raises (tr : list Event) prompt e :
  format_messages (seq_prompt chain) inputs = Returned prompt ->
  model_invoke (seq_model chain) prompt = Raised e ->
  ainvoke chain inputs tr = (Raised e, (tr ++ [EvModelCall prompt])%list).
Proof. intros Hp Hm. by rewrite ainvoke_steps, Hp, Hm. Qed.

Lemma ainvoke_parse (tr : list Event) prompt text :
  format_messages (seq_prompt chain) inputs = Returned prompt ->
  model_invoke (seq_model chain) prompt = Returned text ->
  ainvoke chain inputs tr = (parse (seq_parser chain) text, (tr ++ [EvModelCall prompt])%list).
Proof. intros Hp Hm. by rewrite ainvoke_steps, Hp, Hm. Qed.

End Invocation.

(** ** The handler *)

Section Handler.
Context (chain : RunnableSequence) (input : CodeInput).

Lemma analyze_code_returned (v : PyValue) (tr tr' : list Event) :
  ainvoke chain {[ "language" := language input; "code" := code input ]} tr
    = (Returned v, tr') ->
  analyze_code (Some chain) input tr = (Returned v, tr').
Proof.
  intros H. unfold analyze_code, try_except, bind, ret. by rewrite H.
Qed.

Lemma analyze_code_raised (e : PyException) (tr tr' : list Event) :
  ainvoke chain {[ "language" := language input; "code" := code input ]} tr
    = (Raised e, tr') ->
  analyze_code (Some chain) input tr =
    (Returned (failure_result e),
     (tr' ++ [EvPrint ("Error during analysis: " ++ str e)])%list).
Proof.
  intros H. unfold analyze_code, try_except, bind, ret, print, emit.
  by rewrite H.
Qed.

End Handler.

(** The handler returns on every path: nothing raised inside it leaves it. *)
Lemma analyze_code_never_raises (chain : option RunnableSequence)
    (input : CodeInput) (tr : list Event) :
  exists v tr', analyze_code chain input tr = (Returned v, tr').
Proof.
  destruct chain as [chain|]; [|by eexists _, _].
  destruct (ainvoke chain {[ "language" := language input; "code" := code input ]} tr)
    as [[v|e] tr'] eqn:H.
  - eexists _, _. by apply analyze_code_returned.
  - eexists _, _. by apply analyze_code_raised.
Qed.

(** C3. When the model client failed to configure at startup the chain is
    [None], and then [analyze_code] returns, for every input, the fixed result
    with time "Error", timeExplanation "Server-side model is not configured.",
    space "Error" and spaceExplanation "Please check the server logs."; the
    log of events is left as it was, so the chain is not invoked and no call
    to the model is made. *)
Theorem analyze_code_not_configured (failure : PyException) (p : OutputParser)
    (input : CodeInput) (tr0 tr : list Event) :
  init_model (Raised failure) tr0 =
    (Returned None,
     (tr0 ++ [EvPrint ("Error initializing DeepSeek model: " ++ str failure);
              EvPrint "Please ensure your DEEPSEEK_API_KEY is set in the .env file."])%list) /\
  make_chain None p = None /\
  analyze_code None input tr =
    (Returned
       (PyDict {[ "time" := PyStr "Error";
                  "timeExplanation" := PyStr "Server-side model is not configured.";
                  "space" := PyStr "Error";
                  "spaceExplanation" := PyStr "Please check the server logs." ]}),
     tr).
Proof.
  split; [|split; reflexivity].
  unfold init_model, try_except, bind, lift, print, emit, ret.
  by rewrite <- app_assoc.
Qed.

(** C4. When the chain is configured and its invocation raises an exception
    [e], whether from the remote call or from the parse, [analyze_code]
    catches it, prints the diagnostic line, and returns exactly the result
    with time "Error", timeExplanation "Failed to analyze code. The code may
    be incomplete or invalid.", space "Error" and spaceExplanation
    "Server error: " followed by the text of [e]. *)
Theorem analyze_code_failure_sentinel (chain : RunnableSequence)
    (input : CodeInput) (e : PyException) (tr tr' : list Event) :
  ainvoke chain {[ "language" := language input; "code" := code input ]} tr
    = (Raised e, tr') ->
  analyze_code (Some chain) input tr =
    (Returned
       (PyDict {[ "time" := PyStr "Error";
                  "timeExplanation" :=
                    PyStr "Failed to analyze code. The code may be incomplete or invalid.";
                  "space" := PyStr "Error";
                  "spaceExplanation" := PyStr ("Server error: " ++ str e) ]}),
     (tr' ++ [EvPrint ("Error during analysis: " ++ str e)])%list).
Proof. exact (analyze_code_raised chain input e tr tr'). Qed.

Lemma analyze_code_failure_sentinel_witness :
  exists tr',
    ainvoke (mock_sequence (Raised timeout_error))
      {[ "language" := language loop_input; "code" := code loop_input ]} []
      = (Raised timeout_error, tr') /\
    analyze_code (Some (mock_sequence (Raised timeout_error))) loop_input [] =
      (Returned
         (PyDict {[ "time" := PyStr "Error";
                    "timeExplanation" :=
                      PyStr "Failed to analyze code. The code may be incomplete or invalid.";
                    "space" := PyStr "Error";
                    "spaceExplanation" := PyStr "Server error: Request timed out." ]}),
       (tr' ++ [EvPrint "Error during analysis: Request timed out."])%list).
Proof.
  eexists. split; [vm_compute; reflexivity|].
  apply (analyze_code_failure_sentinel
           (mock_sequence (Raised timeout_error)) loop_input timeout_error).
  vm_compute. reflexivity.
Defined.

(** C6. Whenever the text of the remote model parses, [analyze_code] returns
    the value the parser produced, as it is: nothing is validated, filtered
    or altered, so any field text reaches the caller verbatim. *)
Theorem analyze_code_returns_parsed_verbatim (chain : RunnableSequence)
    (input : CodeInput) (prompt : list (string * string)) (text : string)
    (v : PyValue) (tr : list Event) :
  format_messages (seq_prompt chain)
    {[ "language" := language input; "code" := code input ]} = Returned prompt ->
  model_invoke (seq_model chain) prompt = Returned text ->
  parse (seq_parser chain) text = Returned v ->
  analyze_code (Some chain) input tr = (Returned v, (tr ++ [EvModelCall prompt])%list).
Proof.
  intros Hprompt Hmodel Hparse. apply analyze_code_returned.
  rewrite (ainvoke_parse _ _ _ _ _ Hprompt Hmodel). by rewrite Hparse.
Qed.

Lemma analyze_code_returns_parsed_verbatim_witness :
  exists prompt,
    format_messages (seq_prompt (mock_sequence (Returned odd_reply)))
      {[ "language" := language loop_input; "code" := code loop_input ]}
      = Returned prompt /\
    analyze_code (Some (mock_sequence (Returned odd_reply))) loop_input [] =
      (Returned
         (PyDict {[ "time" := PyStr "fast-ish";
                    "timeExplanation" := PyStr "??";
                    "space" := PyStr "O(banana";
                    "spaceExplanation" := PyStr "n/a" ]}),
       [EvModelCall prompt]).
Proof.
  eexists. split; [vm_compute; reflexivity|].
  apply (analyze_code_returns_parsed_verbatim
           (mock_sequence (Returned odd_reply)) loop_input _ odd_reply _ []).
  - vm_compute. reflexivity.
  - reflexivity.
  - vm_compute. reflexivity.
Defined.

(** ** The prompt *)

(** C8. The prompt is a function of the language label and the code text
    alone: a system message that is the fixed instruction with the parser's
    format instructions in it, and a user message that holds the label and
    the code unchanged, the code between the [<code>] and [</code>] markers.
    Rendering leaves no trace of its own: whatever the model, the one event
    of an invocation is the call that carries this prompt. *)
Theorem prompt_construction (p : OutputParser) (label source : string) :
  exists prompt,
    format_messages (formatted_prompt p)
      {[ "language" := label; "code" := source ]} = Returned prompt /\
    prompt =
      [ ("system", "
You are an expert algorithm analyst. Your sole purpose is to analyze a given code snippet and return its time and space complexity in Big O notation.

You MUST provide your output *only* in the following JSON format. Do not include *any* other text, markdown, greetings, or explanations outside of the JSON structure.

" ++ get_format_instructions p ++ "
");
        ("human", "
Analyze the following code snippet, written in " ++ label ++ ":

<code>
" ++ source ++ "
</code>
") ] /\
    forall (m : ChatModel) (tr : list Event),
      snd (ainvoke (mkRunnableSequence (formatted_prompt p) m p)
             {[ "language" := label; "code" := source ]} tr)
      = (tr ++ [EvModelCall prompt])%list.
Proof.
  destruct (format_messages (formatted_prompt p)
              {[ "language" := label; "code" := source ]})
    as [prompt|e] eqn:Hrender; [|vm_compute in Hrender; discriminate].
  exists prompt. split; [reflexivity|]. split.
  - vm_compute in Hrender. injection Hrender as <-. reflexivity.
  - intros m tr. rewrite ainvoke_steps.
    cbn [seq_prompt seq_model seq_parser]. rewrite Hrender.
    by destruct (model_invoke m prompt).
Qed.

(** ** The routes *)

(** C9. [GET /] succeeds for every request, whatever its headers and body:
    the response has status 200 and its content is the fixed page, in which
    the text "UptimeRobot" occurs. *)
Theorem read_root_always_ok (req : Request) (tr : list Event) :
  route_root req tr = (Returned (Ok200 (PyStr read_root)), tr) /\
  status_code (Ok200 (PyStr read_root)) = 200%Z /\
  contains "UptimeRobot" read_root.
Proof.
  split; [reflexivity|]. split; [reflexivity|].
  apply split_at_first_contains. vm_compute. eauto.
Qed.

(** C10. A [POST /analyze] whose JSON body lacks the [code] or the
    [language] field, or holds a value that is not text for one of them, fails
    validation against [CodeInput] and is answered 422 before [analyze_code]
    runs: no analysis result, not even an error one, is produced, nothing is
    printed and the model is not called. *)
Theorem analyze_rejects_ill_typed_body (chain : option RunnableSequence)
    (headers : list (string * string)) (d : gmap string PyValue)
    (tr : list Event) :
  d !! "code" = None \/ d !! "language" = None \/
  (exists v, d !! "code" = Some v /\ forall s, v <> PyStr s) \/
  (exists v, d !! "language" = Some v /\ forall s, v <> PyStr s) ->
  CodeInput_validate (PyDict d) = None /\
  route_analyze chain (mkRequest headers (Some (PyDict d))) tr =
    (Returned Unprocessable422, tr).
Proof.
  intros Hbad.
  assert (CodeInput_validate (PyDict d) = None) as Hval.
  { unfold CodeInput_validate.
    destruct Hbad as [-> | [-> | [(v & -> & Hv) | (v & -> & Hv)]]].
    - reflexivity.
    - by destruct (validate_str (d !! "code")).
    - destruct v; try reflexivity. by destruct (Hv s).
    - destruct (validate_str (d !! "code")); [|reflexivity].
      destruct v; try reflexivity. by destruct (Hv s0). }
  split; [exact Hval|].
  unfold route_analyze. cbn [req_body mbind option_bind]. by rewrite Hval.
Qed.

Lemma analyze_rejects_ill_typed_body_witness :
  route_analyze (mock_chain (Returned loop_reply))
    (mkRequest [] (Some (PyDict {[ "language" := PyStr "python" ]}))) []
  = (Returned Unprocessable422, []).
Proof.
  apply (analyze_rejects_ill_typed_body (mock_chain (Returned loop_reply)) []
           {[ "language" := PyStr "python" ]} []).
  left. reflexivity.
Defined.

(** A body that holds both fields as text reaches the handler as the
    [CodeInput] made of them. *)
Lemma analyze_accepts_typed_body (d : gmap string PyValue) (c l : string) :
  d !! "code" = Some (PyStr c) -> d !! "language" = Some (PyStr l) ->
  CodeInput_validate (PyDict d) = Some (mkCodeInput c l).
Proof. intros Hc Hl. unfold CodeInput_validate. by rewrite Hc, Hl. Qed.

(** ** The round trip *)

Lemma loop_reply_parses (fi : string) :
  parse (JsonOutputParser fi) loop_reply =
  Returned
    (PyDict {[ "time" := PyStr "O(n)";
               "timeExplanation" := PyStr "single pass";
               "space" := PyStr "O(1)";
               "spaceExplanation" := PyStr "constant extra memory" ]}).
Proof. vm_compute. reflexivity. Qed.

(** C5. When the remote model answers the prompt for the code
    [for i in range(n): pass] in [python] with exactly the text of
    [loop_reply], the object with time "O(n)", timeExplanation "single pass",
    space "O(1)" and spaceExplanation "constant extra memory", then
    [analyze_code] returns that object, every value unchanged. *)
Theorem round_trip (m : ChatModel) (fi : string)
    (prompt : list (string * string)) (tr : list Event) :
  format_messages (formatted_prompt (JsonOutputParser fi))
    {[ "language" := "python"; "code" := "for i in range(n): pass" ]}
    = Returned prompt ->
  model_invoke m prompt = Returned loop_reply ->
  analyze_code (make_chain (Some m) (JsonOutputParser fi))
    (mkCodeInput "for i in range(n): pass" "python") tr =
    (Returned
       (PyDict {[ "time" := PyStr "O(n)";
                  "timeExplanation" := PyStr "single pass";
                  "space" := PyStr "O(1)";
                  "spaceExplanation" := PyStr "constant extra memory" ]}),
     (tr ++ [EvModelCall prompt])%list).
Proof.
  intros Hprompt Hmodel. cbn [make_chain].
  apply analyze_code_returned. cbn [language code].
  rewrite (ainvoke_parse
             (mkRunnableSequence (formatted_prompt (JsonOutputParser fi)) m
                                 (JsonOutputParser fi))
             _ tr prompt loop_reply Hprompt Hmodel).
  cbn [seq_parser]. by rewrite loop_reply_parses.
Qed.

Lemma round_trip_witness :
  exists prompt,
    format_messages (formatted_prompt (JsonOutputParser schema_instructions))
      {[ "language" := "python"; "code" := "for i in range(n): pass" ]}
      = Returned prompt /\
    analyze_code (mock_chain (Returned loop_reply)) loop_input [] =
      (Returned
         (PyDict {[ "time" := PyStr "O(n)";
                    "timeExplanation" := PyStr "single pass";
                    "space" := PyStr "O(1)";
                    "spaceExplanation" := PyStr "constant extra memory" ]}),
       [EvModelCall prompt]).
Proof.
  eexists. split; [vm_compute; reflexivity|].
  apply (round_trip (mock_model (Returned loop_reply)) schema_instructions _ []).
  - vm_compute. reflexivity.
  - reflexivity.
Defined.

(** ** Replies that do not have the four fields *)

Lemma mock_chain_sequence (answer : Outcome string) :
  mock_chain answer = Some (mock_sequence answer).
Proof. reflexivity. Qed.

(** C1. At the reply that holds the [time] field alone, the handler's success
    path hands that one-field dict to the caller: the value it yields is not
    a well-formed result, and the route answers 500. *)
Theorem partial_reply_reaches_caller :
  fst (analyze_code (mock_chain (Returned partial_reply)) loop_input []) =
    Returned (PyDict {[ "time" := PyStr "O(n)" ]}) /\
  well_formed (PyDict {[ "time" := PyStr "O(n)" ]}) = false /\
  fst (route_analyze (mock_chain (Returned partial_reply)) loop_request []) =
    Returned ServerError500.
Proof. repeat split; vm_compute; reflexivity. Qed.

(** C2. Text that is not JSON makes the parser raise, and the handler answers
    with the failure result; a reply that is JSON of another shape, here an
    array, does not raise: the handler returns the array, its [except] branch
    does not run (nothing is printed), and the route answers 500. *)
Theorem schema_mismatch_is_not_caught :
  (exists e,
     fst (analyze_code (mock_chain (Returned prose_reply)) loop_input []) =
       Returned (failure_result e)) /\
  fst (analyze_code (mock_chain (Returned array_reply)) loop_input []) =
    Returned (PyList [PyStr "O(n)"; PyStr "O(1)"]) /\
  (forall line,
     EvPrint line ∉ snd (analyze_code (mock_chain (Returned array_reply)) loop_input [])) /\
  fst (route_analyze (mock_chain (Returned array_reply)) loop_request []) =
    Returned ServerError500.
Proof.
  split.
  { exists (mkException "OutputParserException"
              ("Invalid json output: " ++ prose_reply)).
    vm_compute. reflexivity. }
  split; [vm_compute; reflexivity|].
  split; [|vm_compute; reflexivity].
  intros line.
  destruct (analyze_code_never_raises (mock_chain (Returned array_reply)) loop_input [])
    as (v & tr' & Hrun).
  assert (exists prompt, tr' = [EvModelCall prompt]) as [prompt ->].
  { eexists. revert Hrun. vm_compute. intros [= _ <-]. reflexivity. }
  rewrite Hrun. cbn [snd]. rewrite list_elem_of_singleton. discriminate.
Qed.

(** ** What the route sends *)

(** The four fields may all be empty: the route answers 200 with them. *)
Lemma blank_fields_reach_caller :
  fst (route_analyze (mock_chain (Returned blank_reply)) loop_request []) =
    Returned
      (Ok200
         (PyDict {[ "time" := PyStr EmptyString;
                    "timeExplanation" := PyStr EmptyString;
                    "space" := PyStr EmptyString;
                    "spaceExplanation" := PyStr EmptyString ]})) /\
  populated
    (PyDict {[ "time" := PyStr EmptyString;
               "timeExplanation" := PyStr EmptyString;
               "space" := PyStr EmptyString;
               "spaceExplanation" := PyStr EmptyString ]}) = false.
Proof. split; vm_compute; reflexivity. Qed.

(** * Further properties of the program *)

(** ** The route around the handler *)

Section Route.
Context (req : Request) (input : CodeInput).
Hypothesis Hbody : req_body req ≫= CodeInput_validate = Some input.

Lemma route_analyze_valid_body (chain : option RunnableSequence)
    (tr : list Event) :
  route_analyze chain req tr =
  match analyze_code chain input tr with
  | (Returned v, tr') =>
      match AnalysisOutput_validate v with
      | Some out => (Returned (Ok200 (AnalysisOutput_dump out)), tr')
      | None => (Returned ServerError500, tr')
      end
  | (Raised e, tr') => (Returned ServerError500, tr')
  end.
Proof. unfold route_analyze. by rewrite Hbody. Qed.

(** X4. Both error results pass the check against [AnalysisOutput]: a
    request with a valid body is answered 200 with the error in the body,
    not with an error status, when the model is not configured and when the
    chain raises. *)
Theorem error_paths_answer_200 (tr : list Event) :
  route_analyze None req tr = (Returned (Ok200 not_configured_result), tr) /\
  forall ch e tr',
    ainvoke ch {[ "language" := language input; "code" := code input ]} tr
      = (Raised e, tr') ->
    route_analyze (Some ch) req tr =
      (Returned (Ok200 (failure_result e)),
       (tr' ++ [EvPrint ("Error during analysis: " ++ str e)])%list).
Proof.
  split.
  - rewrite route_analyze_valid_body. cbn [analyze_code ret].
    rewrite not_configured_is_dump at 1. by rewrite validate_dump.
  - intros ch e tr' Hrun. rewrite route_analyze_valid_body.
    rewrite (analyze_code_raised _ _ _ _ _ Hrun).
    rewrite failure_is_dump at 1. by rewrite validate_dump.
Qed.

(** X6. The route answers 500 in one situation only: the chain is
    configured, its invocation returns, and the value returned does not pass
    the check against [AnalysisOutput]. *)
Theorem server_error_iff_unchecked_value (chain : option RunnableSequence)
    (tr tr' : list Event) :
  route_analyze chain req tr = (Returned ServerError500, tr') <->
  exists ch v,
    chain = Some ch /\
    ainvoke ch {[ "language" := language input; "code" := code input ]} tr
      = (Returned v, tr') /\
    AnalysisOutput_validate v = None.
Proof.
  rewrite route_analyze_valid_body. split.
  - destruct chain as [ch|].
    + destruct (ainvoke ch {[ "language" := language input; "code" := code input ]} tr)
        as [[v|e] tr1] eqn:Hrun.
      * rewrite (analyze_code_returned _ _ _ _ _ Hrun).
        destruct (AnalysisOutput_validate v) eqn:Hv; [discriminate|].
        intros [= <-]. by exists ch, v.
      * rewrite (analyze_code_raised _ _ _ _ _ Hrun).
        rewrite failure_is_dump at 1. rewrite validate_dump. discriminate.
    + cbn [analyze_code ret]. rewrite not_configured_is_dump at 1.
      rewrite validate_dump. discriminate.
  - intros (ch & v & -> & Hrun & Hv).
    by rewrite (analyze_code_returned _ _ _ _ _ Hrun), Hv.
Qed.

End Route.

Lemma error_paths_answer_200_witness :
  route_analyze None loop_request [] =
    (Returned (Ok200 not_configured_result), []).
Proof.
  apply (error_paths_answer_200 loop_request loop_input). reflexivity.
Defined.

Lemma server_error_iff_unchecked_value_witness :
  exists tr',
    route_analyze (mock_chain (Returned partial_reply)) loop_request [] =
      (Returned ServerError500, tr').
Proof.
  eexists.
  apply (server_error_iff_unchecked_value loop_request loop_input eq_refl).
  exists (mock_sequence (Returned partial_reply)), (PyDict {[ "time" := PyStr "O(n)" ]}).
  split; [reflexivity|]. split; [vm_compute; reflexivity|reflexivity].
Defined.

(** ** What the route sends for a valid request *)

(** C7 (amended). For a request with a valid body, [/analyze] answers with
    an object that has exactly the four fields, each a non-empty text, on the
    not-configured path and on the failure path. On the success path, when
    the value the chain returned holds the four fields as text, it answers
    with an object that has exactly those four fields, each the text the
    chain returned, empty or not. *)
Theorem analyze_response_fields (req : Request) (input : CodeInput)
    (tr : list Event) :
  req_body req ≫= CodeInput_validate = Some input ->
  (route_analyze None req tr = (Returned (Ok200 not_configured_result), tr) /\
   populated not_configured_result = true) /\
  (forall ch e tr',
     ainvoke ch {[ "language" := language input; "code" := code input ]} tr
       = (Raised e, tr') ->
     route_analyze (Some ch) req tr =
       (Returned (Ok200 (failure_result e)),
        (tr' ++ [EvPrint ("Error during analysis: " ++ str e)])%list) /\
     populated (failure_result e) = true) /\
  (forall ch d t te s se tr',
     ainvoke ch {[ "language" := language input; "code" := code input ]} tr
       = (Returned (PyDict d), tr') ->
     d !! "time" = Some (PyStr t) ->
     d !! "timeExplanation" = Some (PyStr te) ->
     d !! "space" = Some (PyStr s) ->
     d !! "spaceExplanation" = Some (PyStr se) ->
     route_analyze (Some ch) req tr =
       (Returned
          (Ok200 (PyDict {[ "time" := PyStr t;
                            "timeExplanation" := PyStr te;
                            "space" := PyStr s;
                            "spaceExplanation" := PyStr se ]})),
        tr') /\
     well_formed (PyDict {[ "time" := PyStr t;
                            "timeExplanation" := PyStr te;
                            "space" := PyStr s;
                            "spaceExplanation" := PyStr se ]}) = true).
Proof.
  intros Hbody. split; [|split].
  - split; [|apply populated_not_configured].
    rewrite (route_analyze_valid_body req input Hbody). cbn [analyze_code ret].
    rewrite not_configured_is_dump at 1. by rewrite validate_dump.
  - intros ch e tr' Hrun. split; [|apply populated_failure].
    rewrite (route_analyze_valid_body req input Hbody).
    rewrite (analyze_code_raised _ _ _ _ _ Hrun).
    rewrite failure_is_dump at 1. by rewrite validate_dump.
  - intros ch d t te s se tr' Hrun Ht Hte Hs Hse. split.
    + rewrite (route_analyze_valid_body req input Hbody).
      rewrite (analyze_code_returned _ _ _ _ _ Hrun).
      unfold AnalysisOutput_validate. by rewrite Ht, Hte, Hs, Hse.
    + apply (well_formed_dump (mkAnalysisOutput t te s se)).
Qed.

Lemma analyze_response_fields_witness :
  (route_analyze None loop_request [] =
     (Returned (Ok200 not_configured_result), []) /\
   populated not_configured_result = true) /\
  exists tr',
    route_analyze (Some (mock_sequence (Returned blank_reply))) loop_request [] =
      (Returned
         (Ok200 (PyDict {[ "time" := PyStr EmptyString;
                           "timeExplanation" := PyStr EmptyString;
                           "space" := PyStr EmptyString;
                           "spaceExplanation" := PyStr EmptyString ]})),
       tr').
Proof.
  destruct (analyze_response_fields loop_request loop_input [] eq_refl)
    as (Hnone & _ & Hsuccess).
  split; [exact Hnone|]. eexists.
  apply (Hsuccess (mock_sequence (Returned blank_reply))
           {[ "time" := PyStr EmptyString;
              "timeExplanation" := PyStr EmptyString;
              "space" := PyStr EmptyString;
              "spaceExplanation" := PyStr EmptyString ]}).
  - vm_compute. reflexivity.
  - reflexivity.
  - reflexivity.
  - reflexivity.
  - reflexivity.
Defined.
